(** * ExecutionCommand: the read-only accessor over command.json

    A shallow embedding of
    [resource_management/libraries/execution_command/execution_command.py]
    and the properties of its path lookup and of its getters.

    Python values are a tagged tree, dictionaries are finite maps with
    string keys, exceptions are an explicit result type, and the methods of
    the class run in a small state-and-exception monad over the attributes
    of the object. *)

From stdpp Require Import gmap strings list.
From Stdlib Require Import ZArith Ascii String.

Set Warnings "-register-all".
Open Scope string_scope.
Open Scope Z_scope.

(** ** Python values *)

(** The values a command document is made of, as [json.loads] builds them.
    [VFloat m e] is the finite float [m * 2^e]. *)
Inductive pyval : Type :=
| VNone
| VBool (b : bool)
| VInt (z : Z)
| VFloat (m e : Z)
| VStr (s : string)
| VList (l : list pyval)
| VDict (m : gmap string pyval).

(** The exceptions the modelled code can meet. [CoercionError] is the
    error of the typed getters: value present but of the wrong type. *)
Inductive exn : Type :=
| TypeError
| KeyError
| ValueError
| AttributeError
| CoercionError.

Inductive result (A : Type) : Type :=
| Ok (a : A)
| Raise (e : exn).
Arguments Ok {A} a.
Arguments Raise {A} e.

(** ** Builtins used by the module *)

(** [s.split(sep)] for a one-character separator: the pieces between the
    separators, empty pieces included; never the empty list. *)
Fixpoint split (sep : ascii) (s : string) : list string :=
  match s with
  | EmptyString => [EmptyString]
  | String c s' =>
      if Ascii.eqb c sep then EmptyString :: split sep s'
      else match split sep s' with
           | [] => [String c EmptyString]
           | piece :: pieces => String c piece :: pieces
           end
  end.

(** [filter(None, pieces)] on strings keeps the non-empty ones. *)
Definition filter_None (pieces : list string) : list string :=
  filter (λ piece : string, piece ≠ "") pieces.

(** [x == None]. *)
Definition eq_None (x : pyval) : bool :=
  match x with
  | VNone => true
  | _ => false
  end.

(** [sub_key in value]: key membership on a dict, element membership on a
    list, substring test on a string, [TypeError] on everything else. *)
Definition py_in (sub_key : string) (container : pyval) : result bool :=
  match container with
  | VDict m => Ok (bool_decide (is_Some (m !! sub_key)))
  | VList l =>
      Ok (existsb (λ x, match x with
                        | VStr s => String.eqb s sub_key
                        | _ => false
                        end) l)
  | VStr s => Ok (bool_decide (is_Some (String.index 0 sub_key s)))
  | VNone | VBool _ | VInt _ | VFloat _ _ => Raise TypeError
  end.

(** [value[sub_key]] with a string subscript: the entry of a dict
    ([KeyError] when missing); lists and strings want integer indices and
    the other values are not subscriptable. *)
Definition py_getitem (container : pyval) (sub_key : string) : result pyval :=
  match container with
  | VDict m =>
      match m !! sub_key with
      | Some x => Ok x
      | None => Raise KeyError
      end
  | _ => Raise TypeError
  end.

(** *** [int(x)] *)

Definition is_space (c : ascii) : bool :=
  let n := nat_of_ascii c in
  (Nat.eqb n 32 || (Nat.leb 9 n && Nat.leb n 13))%bool.

Definition digit_of (c : ascii) : option Z :=
  let n := nat_of_ascii c in
  if (Nat.leb 48 n && Nat.leb n 57)%bool then Some (Z.of_nat n - 48) else None.

Fixpoint lstrip (cs : list ascii) : list ascii :=
  match cs with
  | c :: cs' => if is_space c then lstrip cs' else cs
  | [] => []
  end.

Definition strip (cs : list ascii) : list ascii :=
  rev (lstrip (rev (lstrip cs))).

Fixpoint digits (acc : Z) (cs : list ascii) : option Z :=
  match cs with
  | [] => Some acc
  | c :: cs' =>
      match digit_of c with
      | Some k => digits (10 * acc + k) cs'
      | None => None
      end
  end.

Definition unsigned (cs : list ascii) : option Z :=
  match cs with
  | [] => None
  | _ => digits 0 cs
  end.

(** The decimal literals [int] accepts: blanks around, an optional sign,
    at least one digit. *)
Definition int_of_str (s : string) : option Z :=
  match strip (list_ascii_of_string s) with
  | "-"%char :: cs => Z.opp <$> unsigned cs
  | "+"%char :: cs => unsigned cs
  | cs => unsigned cs
  end.

Definition py_int (x : pyval) : result Z :=
  match x with
  | VInt z => Ok z
  | VBool b => Ok (if b then 1 else 0)
  | VFloat m e => Ok (if 0 <=? e then m * 2 ^ e else Z.quot m (2 ^ (- e)))
  | VStr s =>
      match int_of_str s with
      | Some z => Ok z
      | None => Raise ValueError
      end
  | VNone | VList _ | VDict _ => Raise TypeError
  end.

(** ** The object and the monad of its methods *)

(** The collaborator built by the constructor from the two subtrees handed
    to it. *)
Record ModuleConfigs : Type := mkModuleConfigs {
  configurations : pyval;
  configurationAttributes : pyval
}.

(** The private attributes of an [ExecutionCommand]; [None] is an
    attribute not set yet. *)
Record ExecutionCommand : Type := mkExecutionCommand {
  execution_command : option pyval;
  module_configs : option ModuleConfigs
}.

(** A method takes the object and gives a value or an exception, and the
    object as it leaves it. *)
Definition M (A : Type) : Type :=
  ExecutionCommand → result A * ExecutionCommand.

#[global] Instance M_ret : MRet M := λ A a self, (Ok a, self).

#[global] Instance M_bind : MBind M := λ A B f m self,
  match m self with
  | (Ok a, self') => f a self'
  | (Raise e, self') => (Raise e, self')
  end.

#[global] Instance M_fmap : FMap M := λ A B f m,
  a ← m; mret (f a).

Definition raise {A} (e : exn) : M A := λ self, (Raise e, self).

(** [try: body except: handler] with a bare [except]. *)
Definition try_except {A} (body handler : M A) : M A := λ self,
  match body self with
  | (Ok a, self') => (Ok a, self')
  | (Raise _, self') => handler self'
  end.

Definition lift {A} (r : result A) : M A := λ self, (r, self).

(** Reading and writing the attributes. *)
Definition read_execution_command : M pyval := λ self,
  match execution_command self with
  | Some command => (Ok command, self)
  | None => (Raise AttributeError, self)
  end.

Definition read_module_configs : M ModuleConfigs := λ self,
  match module_configs self with
  | Some configs => (Ok configs, self)
  | None => (Raise AttributeError, self)
  end.

Definition write_execution_command (command : pyval) : M unit := λ self,
  (Ok tt, mkExecutionCommand (Some command) (module_configs self)).

Definition write_module_configs (configs : ModuleConfigs) : M unit := λ self,
  (Ok tt, mkExecutionCommand (execution_command self) (Some configs)).

(** What a call returns and how it leaves the object. *)
Definition returned {A} (m : M A) (self : ExecutionCommand) : result A :=
  fst (m self).
Definition after {A} (m : M A) (self : ExecutionCommand) : ExecutionCommand :=
  snd (m self).

(** ** The path lookup *)

(** The body of the loop of [__get_value]: lines 54-60. *)
Fixpoint traverse (sub_keys : list string) (value default_value : pyval)
  : result pyval :=
  match sub_keys with
  | [] => Ok value
  | sub_key :: rest =>
      match py_in sub_key value with
      | Raise e => Raise e
      | Ok false => Ok default_value
      | Ok true =>
          match py_getitem value sub_key with
          | Raise e => Raise e
          | Ok item =>
              traverse rest
                (if eq_None item then default_value else item) default_value
          end
      end
  end.

(** The keys of a query string: [filter(None, key.split('/'))]. *)
Definition sub_keys_of (key : string) : list string :=
  filter_None (split "/" key).

Definition __get_value (key : string) (default_value : pyval) : M pyval :=
  let sub_keys := sub_keys_of key in
  value ← read_execution_command;
  try_except (lift (traverse sub_keys value default_value))
             (mret default_value).

Definition get_value (query_string : string) (default_value : pyval) : M pyval :=
  __get_value query_string default_value.

(** The constructor. *)
Definition __init__ (command : pyval) : M unit :=
  write_execution_command command;;
  configs ← __get_value "configurations" VNone;
  attributes ← __get_value "configurationAttributes" VNone;
  write_module_configs (mkModuleConfigs configs attributes).

(** [ExecutionCommand(command)]: a fresh object after [__init__]. *)
Definition construct (command : pyval) : ExecutionCommand :=
  after (__init__ command) (mkExecutionCommand None None).

(** ** The getters

    One definition per method, in the order of the class. *)

(** Modelled from the spec: [expect_v2] of
    [resource_management.libraries.functions.expect] is imported by two
    getters and is not among the sources. The spec gives it as follows: an
    absent field is no error and gives the declared default; a field that
    coerces gives the integer; a field that is present and does not coerce
    gives the default when one is supplied, and otherwise an error of its
    own kind reaches the caller. It is a module function that reads the
    command of the running script, taken here to be the command of the
    object. *)
Inductive expected : Type :=
| Tint.

Definition expect_v2 (name : string) (expected_type : expected)
    (default_value : option pyval) : M pyval :=
  value ← get_value name VNone;
  if eq_None value then mret (default VNone default_value)
  else match expected_type, py_int value with
       | Tint, Ok n => mret (VInt n)
       | Tint, Raise _ =>
           match default_value with
           | Some fallback => mret fallback
           | None => raise CoercionError
           end
       end.

Definition get_module_configs : M ModuleConfigs :=
  read_module_configs.

Definition get_module_name : M pyval :=
  __get_value "serviceName" VNone.

Definition get_component_type : M pyval :=
  __get_value "role" VNone.

Definition get_component_instance_name : M pyval :=
  mret (VStr "default").

Definition get_servicegroup_name : M pyval :=
  __get_value "serviceGroupName" VNone.

Definition get_cluster_name : M pyval :=
  __get_value "clusterName" VNone.

Definition get_repository_file : M pyval :=
  __get_value "repositoryFile" VNone.

Definition get_local_components : M pyval :=
  __get_value "localComponents" (VList []).

Definition get_jdk_location : M pyval :=
  __get_value "ambariLevelParams/jdk_location" VNone.

Definition get_jdk_name : M pyval :=
  __get_value "ambariLevelParams/jdk_name" VNone.

Definition get_java_home : M pyval :=
  __get_value "ambariLevelParams/java_home" VNone.

Definition get_java_version : M pyval :=
  expect_v2 "ambariLevelParams/java_version" Tint None.

Definition get_jce_name : M pyval :=
  __get_value "ambariLevelParams/jce_name" VNone.

Definition get_db_driver_file_name : M pyval :=
  __get_value "ambariLevelParams/db_driver_filename" VNone.

Definition get_db_name : M pyval :=
  __get_value "ambariLevelParams/db_name" VNone.

Definition get_oracle_jdbc_url : M pyval :=
  __get_value "ambariLevelParams/oracle_jdbc_url" VNone.

Definition get_mysql_jdbc_url : M pyval :=
  __get_value "ambariLevelParams/mysql_jdbc_url" VNone.

Definition get_agent_stack_retry_count : M pyval :=
  expect_v2 "ambariLevelParams/agent_stack_retry_count" Tint (Some (VInt 5)).

Definition check_agent_stack_want_retry_on_unavailability : M pyval :=
  __get_value "ambariLevelParams/agent_stack_retry_on_unavailability" VNone.

Definition get_ambari_server_host : M pyval :=
  __get_value "ambariLevelParams/ambari_server_host" VNone.

Definition get_ambari_server_port : M pyval :=
  __get_value "ambariLevelParams/ambari_server_port" VNone.

Definition is_ambari_server_use_ssl : M pyval :=
  __get_value "ambariLevelParams/ambari_server_use_ssl" (VBool false).

Definition is_host_system_prepared : M pyval :=
  __get_value "ambariLevelParams/host_sys_prepped" (VBool false).

Definition is_gpl_license_accepted : M pyval :=
  __get_value "ambariLevelParams/gpl_license_accepted" (VBool false).

Definition get_mpack_name : M pyval :=
  __get_value "stackSettings/stack_name" VNone.

Definition get_mpack_version : M pyval :=
  __get_value "stackSettings/stack_version" VNone.

Definition get_user_groups : M pyval :=
  __get_value "stackSettings/user_groups" VNone.

Definition get_group_list : M pyval :=
  __get_value "stackSettings/group_list" VNone.

Definition get_user_list : M pyval :=
  __get_value "stackSettings/user_list" VNone.

Definition get_host_name : M pyval :=
  __get_value "agentLevelParams/hostname" VNone.

Definition check_agent_config_execute_in_parallel : M pyval :=
  value ← __get_value "agentConfigParams/agent/parallel_execution" (VInt 0);
  n ← lift (py_int value);
  mret (VInt n).

Definition get_agent_cache_dir : M pyval :=
  __get_value "agentLevelParams/agentCacheDir" VNone.

Definition get_repo_info : M pyval :=
  __get_value "hostLevelParams/repoInfo" VNone.

Definition get_service_repo_info : M pyval :=
  __get_value "hostLevelParams/service_repo_info" VNone.

Definition check_unlimited_key_jce_required : M pyval :=
  __get_value "componentLevelParams/unlimited_key_jce_required" (VBool false).

Definition get_new_mpack_version_for_upgrade : M pyval :=
  __get_value "commandParams/version" VNone.

Definition check_command_retry_enabled : M pyval :=
  __get_value "commandParams/command_retry_enabled" (VBool false).

Definition check_upgrade_direction : M pyval :=
  __get_value "commandParams/upgrade_direction" VNone.

Definition get_upgrade_type : M pyval :=
  __get_value "commandParams/upgrade_type" (VStr "").

Definition is_rolling_restart_in_upgrade : M pyval :=
  __get_value "commandParams/rolling_restart" (VBool false).

Definition is_update_files_only : M pyval :=
  __get_value "commandParams/update_files_only" (VBool false).

Definition get_deploy_phase : M pyval :=
  __get_value "commandParams/phase" VNone.

Definition get_dfs_type : M pyval :=
  __get_value "commandParams/dfs_type" VNone.

Definition get_module_package_folder : M pyval :=
  __get_value "commandParams/service_package_folder" VNone.

Definition get_ambari_java_home : M pyval :=
  __get_value "commandParams/ambari_java_home" VNone.

Definition get_ambari_java_name : M pyval :=
  __get_value "commandParams/ambari_java_name" VNone.

Definition get_ambari_jce_name : M pyval :=
  __get_value "commandParams/ambari_jce_name" VNone.

Definition get_ambari_jdk_name : M pyval :=
  __get_value "commandParams/ambari_jdk_name" VNone.

Definition need_refresh_topology : M pyval :=
  __get_value "commandParams/refresh_topology" (VBool false).

Definition check_only_update_files : M pyval :=
  __get_value "commandParams/update_files_only" (VBool false).

Definition get_desired_namenode_role : M pyval :=
  __get_value "commandParams/desired_namenode_role" VNone.

Definition get_node (type : string) : M pyval :=
  let key := "commandParams/" +:+ type +:+ "node" in
  __get_value key VNone.

Definition is_upgrade_suspended : M pyval :=
  __get_value "roleParams/upgrade_suspended" (VBool false).

Definition get_component_hosts (component_name : string) : M pyval :=
  let key := "clusterHostInfo/" +:+ component_name +:+ "_hosts" in
  let key := if String.eqb component_name "oozie_server"
             then "clusterHostInfo/" +:+ component_name
             else key in
  __get_value key (VList []).

Definition get_component_host (component_name : string) : M pyval :=
  let key := "clusterHostInfo/" +:+ component_name +:+ "_host" in
  __get_value key (VList []).

Definition get_all_hosts : M pyval :=
  __get_value "clusterHostInfo/all_hosts" (VList []).

Definition get_all_racks : M pyval :=
  __get_value "clusterHostInfo/all_racks" (VList []).

Definition get_all_ipv4_ips : M pyval :=
  __get_value "clusterHostInfo/all_ipv4_ips" (VList []).

(** *** Every call a client can make

    The public methods with their arguments, and what a call returns: a
    value of the document, or the module configuration object. *)
Inductive method : Type :=
| Get_value (query_string : string) (default_value : pyval)
| Get_module_configs
| Get_module_name
| Get_component_type
| Get_component_instance_name
| Get_servicegroup_name
| Get_cluster_name
| Get_repository_file
| Get_local_components
| Get_jdk_location
| Get_jdk_name
| Get_java_home
| Get_java_version
| Get_jce_name
| Get_db_driver_file_name
| Get_db_name
| Get_oracle_jdbc_url
| Get_mysql_jdbc_url
| Get_agent_stack_retry_count
| Check_agent_stack_want_retry_on_unavailability
| Get_ambari_server_host
| Get_ambari_server_port
| Is_ambari_server_use_ssl
| Is_host_system_prepared
| Is_gpl_license_accepted
| Get_mpack_name
| Get_mpack_version
| Get_user_groups
| Get_group_list
| Get_user_list
| Get_host_name
| Check_agent_config_execute_in_parallel
| Get_agent_cache_dir
| Get_repo_info
| Get_service_repo_info
| Check_unlimited_key_jce_required
| Get_new_mpack_version_for_upgrade
| Check_command_retry_enabled
| Check_upgrade_direction
| Get_upgrade_type
| Is_rolling_restart_in_upgrade
| Is_update_files_only
| Get_deploy_phase
| Get_dfs_type
| Get_module_package_folder
| Get_ambari_java_home
| Get_ambari_java_name
| Get_ambari_jce_name
| Get_ambari_jdk_name
| Need_refresh_topology
| Check_only_update_files
| Get_desired_namenode_role
| Get_node (type : string)
| Is_upgrade_suspended
| Get_component_hosts (component_name : string)
| Get_component_host (component_name : string)
| Get_all_hosts
| Get_all_racks
| Get_all_ipv4_ips.

Inductive returns : Type :=
| RValue (x : pyval)
| RConfigs (configs : ModuleConfigs).

Definition call (f : method) : M returns :=
  match f with
  | Get_value query_string default_value =>
      RValue <$> get_value query_string default_value
  | Get_module_configs => RConfigs <$> get_module_configs
  | Get_module_name => RValue <$> get_module_name
  | Get_component_type => RValue <$> get_component_type
  | Get_component_instance_name => RValue <$> get_component_instance_name
  | Get_servicegroup_name => RValue <$> get_servicegroup_name
  | Get_cluster_name => RValue <$> get_cluster_name
  | Get_repository_file => RValue <$> get_repository_file
  | Get_local_components => RValue <$> get_local_components
  | Get_jdk_location => RValue <$> get_jdk_location
  | Get_jdk_name => RValue <$> get_jdk_name
  | Get_java_home => RValue <$> get_java_home
  | Get_java_version => RValue <$> get_java_version
  | Get_jce_name => RValue <$> get_jce_name
  | Get_db_driver_file_name => RValue <$> get_db_driver_file_name
  | Get_db_name => RValue <$> get_db_name
  | Get_oracle_jdbc_url => RValue <$> get_oracle_jdbc_url
  | Get_mysql_jdbc_url => RValue <$> get_mysql_jdbc_url
  | Get_agent_stack_retry_count => RValue <$> get_agent_stack_retry_count
  | Check_agent_stack_want_retry_on_unavailability => RValue <$> check_agent_stack_want_retry_on_unavailability
  | Get_ambari_server_host => RValue <$> get_ambari_server_host
  | Get_ambari_server_port => RValue <$> get_ambari_server_port
  | Is_ambari_server_use_ssl => RValue <$> is_ambari_server_use_ssl
  | Is_host_system_prepared => RValue <$> is_host_system_prepared
  | Is_gpl_license_accepted => RValue <$> is_gpl_license_accepted
  | Get_mpack_name => RValue <$> get_mpack_name
  | Get_mpack_version => RValue <$> get_mpack_version
  | Get_user_groups => RValue <$> get_user_groups
  | Get_group_list => RValue <$> get_group_list
  | Get_user_list => RValue <$> get_user_list
  | Get_host_name => RValue <$> get_host_name
  | Check_agent_config_execute_in_parallel => RValue <$> check_agent_config_execute_in_parallel
  | Get_agent_cache_dir => RValue <$> get_agent_cache_dir
  | Get_repo_info => RValue <$> get_repo_info
  | Get_service_repo_info => RValue <$> get_service_repo_info
  | Check_unlimited_key_jce_required => RValue <$> check_unlimited_key_jce_required
  | Get_new_mpack_version_for_upgrade => RValue <$> get_new_mpack_version_for_upgrade
  | Check_command_retry_enabled => RValue <$> check_command_retry_enabled
  | Check_upgrade_direction => RValue <$> check_upgrade_direction
  | Get_upgrade_type => RValue <$> get_upgrade_type
  | Is_rolling_restart_in_upgrade => RValue <$> is_rolling_restart_in_upgrade
  | Is_update_files_only => RValue <$> is_update_files_only
  | Get_deploy_phase => RValue <$> get_deploy_phase
  | Get_dfs_type => RValue <$> get_dfs_type
  | Get_module_package_folder => RValue <$> get_module_package_folder
  | Get_ambari_java_home => RValue <$> get_ambari_java_home
  | Get_ambari_java_name => RValue <$> get_ambari_java_name
  | Get_ambari_jce_name => RValue <$> get_ambari_jce_name
  | Get_ambari_jdk_name => RValue <$> get_ambari_jdk_name
  | Need_refresh_topology => RValue <$> need_refresh_topology
  | Check_only_update_files => RValue <$> check_only_update_files
  | Get_desired_namenode_role => RValue <$> get_desired_namenode_role
  | Get_node type => RValue <$> get_node type
  | Is_upgrade_suspended => RValue <$> is_upgrade_suspended
  | Get_component_hosts component_name => RValue <$> get_component_hosts component_name
  | Get_component_host component_name => RValue <$> get_component_host component_name
  | Get_all_hosts => RValue <$> get_all_hosts
  | Get_all_racks => RValue <$> get_all_racks
  | Get_all_ipv4_ips => RValue <$> get_all_ipv4_ips
  end.

(** ** Where a path leads in a document

    The shape of the document along a path, read off the document alone:
    the path resolves to a value, or a mapping on the way lacks the key, or
    a key holds null (with the keys that remain after it), or the node
    reached while keys remain is no mapping at all. *)
Inductive place : Type :=
| Found (x : pyval)
| Missing
| NullNode (rest : list string)
| NotMapping.

Fixpoint locate (d : pyval) (sub_keys : list string) : place :=
  match sub_keys with
  | [] => Found d
  | sub_key :: rest =>
      match d with
      | VDict m =>
          match m !! sub_key with
          | None => Missing
          | Some VNone => NullNode rest
          | Some x => locate x rest
          end
      | _ => NotMapping
      end
  end.

(** A node that is not a mapping is met while keys remain: a scalar or a
    sequence, or a null that is followed by further keys. *)
Definition meets_non_mapping (d : pyval) (sub_keys : list string) : Prop :=
  locate d sub_keys = NotMapping ∨
  ∃ rest, rest ≠ [] ∧ locate d sub_keys = NullNode rest.

(** A null is met before the final key. *)
Definition null_before_final (d : pyval) (sub_keys : list string) : Prop :=
  ∃ rest, rest ≠ [] ∧ locate d sub_keys = NullNode rest.

Definition is_dict (x : pyval) : bool :=
  match x with
  | VDict _ => true
  | _ => false
  end.

(** A query string with nothing but slashes in it. *)
Fixpoint only_slashes (key : string) : bool :=
  match key with
  | EmptyString => true
  | String c key' => Ascii.eqb c "/" && only_slashes key'
  end.

(** A name with no slash in it. *)
Fixpoint slash_free (name : string) : bool :=
  match name with
  | EmptyString => true
  | String c name' => negb (Ascii.eqb c "/") && slash_free name'
  end.

(** What [__get_value] computes from the command, the keys and the
    default: the loop under its [try]. *)
Definition query (command : pyval) (sub_keys : list string)
    (default_value : pyval) : pyval :=
  match traverse sub_keys command default_value with
  | Ok x => x
  | Raise _ => default_value
  end.

(** A computation that leaves every object as it found it. *)
Definition preserves {A} (m : M A) : Prop :=
  ∀ self, after m self = self.

(** ** Query strings from keys *)

(** [sep.join(keys)]. *)
Fixpoint join (sep : string) (keys : list string) : string :=
  match keys with
  | [] => ""
  | [key] => key
  | key :: keys' => key +:+ sep +:+ join sep keys'
  end.

(** A key as a query string can address it: not empty, no slash. *)
Definition wellformed_key (key : string) : Prop :=
  key ≠ "" ∧ slash_free key = true.

(** The entry of a document under a key, as the lookup hands it out: the
    value of the key, [None] when the key is missing or the document is no
    mapping. *)
Definition entry (d : pyval) (key : string) : pyval :=
  match d with
  | VDict m => default VNone (m !! key)
  | _ => VNone
  end.

(** The value a path leads to in a document when it leads to one that is
    not null, and the given default otherwise. *)
Definition value_at (d : pyval) (keys : list string) (default_value : pyval)
  : pyval :=
  match locate d keys with
  | Found x => x
  | _ => default_value
  end.

(** ** The getters by kind *)

(** The getters that only look up a fixed path, each with the keys of its
    path and its default. *)
Definition fixed_getters : list (M pyval * list string * pyval) := [
  (get_module_name, ["serviceName"], VNone);
  (get_component_type, ["role"], VNone);
  (get_servicegroup_name, ["serviceGroupName"], VNone);
  (get_cluster_name, ["clusterName"], VNone);
  (get_repository_file, ["repositoryFile"], VNone);
  (get_local_components, ["localComponents"], (VList []));
  (get_jdk_location, ["ambariLevelParams"; "jdk_location"], VNone);
  (get_jdk_name, ["ambariLevelParams"; "jdk_name"], VNone);
  (get_java_home, ["ambariLevelParams"; "java_home"], VNone);
  (get_jce_name, ["ambariLevelParams"; "jce_name"], VNone);
  (get_db_driver_file_name, ["ambariLevelParams"; "db_driver_filename"], VNone);
  (get_db_name, ["ambariLevelParams"; "db_name"], VNone);
  (get_oracle_jdbc_url, ["ambariLevelParams"; "oracle_jdbc_url"], VNone);
  (get_mysql_jdbc_url, ["ambariLevelParams"; "mysql_jdbc_url"], VNone);
  (check_agent_stack_want_retry_on_unavailability, ["ambariLevelParams"; "agent_stack_retry_on_unavailability"], VNone);
  (get_ambari_server_host, ["ambariLevelParams"; "ambari_server_host"], VNone);
  (get_ambari_server_port, ["ambariLevelParams"; "ambari_server_port"], VNone);
  (is_ambari_server_use_ssl, ["ambariLevelParams"; "ambari_server_use_ssl"], (VBool false));
  (is_host_system_prepared, ["ambariLevelParams"; "host_sys_prepped"], (VBool false));
  (is_gpl_license_accepted, ["ambariLevelParams"; "gpl_license_accepted"], (VBool false));
  (get_mpack_name, ["stackSettings"; "stack_name"], VNone);
  (get_mpack_version, ["stackSettings"; "stack_version"], VNone);
  (get_user_groups, ["stackSettings"; "user_groups"], VNone);
  (get_group_list, ["stackSettings"; "group_list"], VNone);
  (get_user_list, ["stackSettings"; "user_list"], VNone);
  (get_host_name, ["agentLevelParams"; "hostname"], VNone);
  (get_agent_cache_dir, ["agentLevelParams"; "agentCacheDir"], VNone);
  (get_repo_info, ["hostLevelParams"; "repoInfo"], VNone);
  (get_service_repo_info, ["hostLevelParams"; "service_repo_info"], VNone);
  (check_unlimited_key_jce_required, ["componentLevelParams"; "unlimited_key_jce_required"], (VBool false));
  (get_new_mpack_version_for_upgrade, ["commandParams"; "version"], VNone);
  (check_command_retry_enabled, ["commandParams"; "command_retry_enabled"], (VBool false));
  (check_upgrade_direction, ["commandParams"; "upgrade_direction"], VNone);
  (get_upgrade_type, ["commandParams"; "upgrade_type"], (VStr ""));
  (is_rolling_restart_in_upgrade, ["commandParams"; "rolling_restart"], (VBool false));
  (is_update_files_only, ["commandParams"; "update_files_only"], (VBool false));
  (get_deploy_phase, ["commandParams"; "phase"], VNone);
  (get_dfs_type, ["commandParams"; "dfs_type"], VNone);
  (get_module_package_folder, ["commandParams"; "service_package_folder"], VNone);
  (get_ambari_java_home, ["commandParams"; "ambari_java_home"], VNone);
  (get_ambari_java_name, ["commandParams"; "ambari_java_name"], VNone);
  (get_ambari_jce_name, ["commandParams"; "ambari_jce_name"], VNone);
  (get_ambari_jdk_name, ["commandParams"; "ambari_jdk_name"], VNone);
  (need_refresh_topology, ["commandParams"; "refresh_topology"], (VBool false));
  (check_only_update_files, ["commandParams"; "update_files_only"], (VBool false));
  (get_desired_namenode_role, ["commandParams"; "desired_namenode_role"], VNone);
  (is_upgrade_suspended, ["roleParams"; "upgrade_suspended"], (VBool false));
  (get_all_hosts, ["clusterHostInfo"; "all_hosts"], (VList []));
  (get_all_racks, ["clusterHostInfo"; "all_racks"], (VList []));
  (get_all_ipv4_ips, ["clusterHostInfo"; "all_ipv4_ips"], (VList [])) ].

(** The getters that go through an integer conversion. *)
Definition integer_typed (f : method) : bool :=
  match f with
  | Get_java_version
  | Get_agent_stack_retry_count
  | Check_agent_config_execute_in_parallel => true
  | _ => false
  end.

(** A client making one call after the other on the same object. *)
Definition run_calls (fs : list method) (self : ExecutionCommand)
  : ExecutionCommand :=
  foldl (λ self' f, after (call f) self') self fs.

(** ** Documents used as concrete inputs *)

Definition doc_cluster_only : pyval :=
  VDict {[ "clusterName" := VStr "c1" ]}.

Definition doc_scalar_params : pyval :=
  VDict {[ "commandParams" := VStr "restart" ]}.

Definition doc_null_node : pyval :=
  VDict {[ "a" := VNone ]}.

Definition doc_null_params : pyval :=
  VDict {[ "commandParams" := VNone ]}.

Definition doc_java_8 : pyval :=
  VDict {[ "ambariLevelParams" := VDict {[ "java_version" := VStr "8" ]} ]}.

Definition doc_java_dotted : pyval :=
  VDict {[ "ambariLevelParams" := VDict {[ "java_version" := VStr "1.8" ]} ]}.

Definition doc_flags_as_words : pyval :=
  VDict {[ "ambariLevelParams" :=
             VDict {[ "agent_stack_retry_count" := VStr "yes" ]};
           "agentConfigParams" :=
             VDict {[ "agent" := VDict {[ "parallel_execution" := VStr "yes" ]} ]} ]}.

Definition doc_oozie : pyval :=
  VDict {[ "clusterHostInfo" :=
             VDict {[ "oozie_server" := VList [VStr "h1"] ]} ]}.

Definition doc_zookeeper : pyval :=
  VDict {[ "clusterHostInfo" :=
             VDict {[ "zookeeper_server_hosts" := VList [VStr "h2"] ]} ]}.

Definition doc_namenodes : pyval :=
  VDict {[ "commandParams" :=
             VDict {[ "activenode" := VStr "nn1"; "standbynode" := VStr "nn2" ]} ]}.

(** * Properties *)

(** ** The monad and the constructor *)

Lemma __get_value_run key default_value self command :
  execution_command self = Some command →
  __get_value key default_value self
  = (Ok (query command (sub_keys_of key) default_value), self).
Proof.
  intros Hcommand.
  unfold __get_value, query, mbind, M_bind, read_execution_command,
    try_except, lift, mret, M_ret.
  rewrite Hcommand.
  by destruct (traverse _ _ _).
Qed.

Lemma construct_run command :
  construct command
  = mkExecutionCommand (Some command)
      (Some (mkModuleConfigs
               (query command (sub_keys_of "configurations") VNone)
               (query command (sub_keys_of "configurationAttributes") VNone))).
Proof.
  unfold construct, after, __init__, mbind, M_bind, write_execution_command.
  cbn [execution_command module_configs].
  rewrite (__get_value_run _ _ _ command) by done.
  rewrite (__get_value_run _ _ _ command) by done.
  done.
Qed.

Lemma construct_command command :
  execution_command (construct command) = Some command.
Proof. by rewrite construct_run. Qed.

Lemma get_value_construct d p v :
  returned (get_value p v) (construct d) = Ok (query d (sub_keys_of p) v).
Proof.
  unfold returned, get_value.
  by rewrite (__get_value_run _ _ _ d) by apply construct_command.
Qed.

(** ** The loop against the shape of the document *)

Lemma query_locate d sub_keys v :
  query d sub_keys v
  = match locate d sub_keys with
    | Found x => x
    | Missing | NotMapping => v
    | NullNode rest => query v rest v
    end.
Proof.
  revert d. induction sub_keys as [|sub_key rest IH]; intros d; [done|].
  destruct d as [| b | z | m e | s | l | m]; try done.
  - unfold query; cbn. by destruct (bool_decide _).
  - unfold query; cbn. by destruct (existsb _ _).
  - unfold query in *; cbn.
    destruct (m !! sub_key) as [item|] eqn:Hitem; cbn; [|done].
    destruct item; cbn; try apply IH; done.
Qed.

Lemma query_not_dict v sub_keys :
  is_dict v = false → query v sub_keys v = v.
Proof.
  intros Hv. rewrite query_locate.
  destruct sub_keys as [|sub_key rest]; [done|].
  by destruct v.
Qed.

Lemma locate_Found_not_None d sub_key rest x :
  locate d (sub_key :: rest) = Found x → eq_None x = false.
Proof.
  revert d sub_key. induction rest as [|next rest IH]; intros d sub_key.
  - cbn. destruct d as [| | | | | |m]; try done.
    destruct (m !! sub_key) as [[]|]; cbn; intros ?; by simplify_eq.
  - cbn [locate]. destruct d as [| | | | | |m]; try done.
    destruct (m !! sub_key) as [item|]; [|done].
    destruct item as [| | | | | |m']; try done.
    apply (IH (VDict m') next).
Qed.

(** ** Splitting a query string *)

Lemma split_nonempty sep s : split sep s ≠ [].
Proof.
  destruct s as [|c s]; cbn; [done|].
  destruct (Ascii.eqb c sep); [done|]. by destruct (split sep s).
Qed.

Lemma sub_keys_only_slashes key :
  only_slashes key = true → sub_keys_of key = [].
Proof.
  unfold sub_keys_of, filter_None.
  induction key as [|c key IH]; cbn [split only_slashes]; intros Hkey.
  - by rewrite filter_cons_False by (by intros []).
  - apply andb_prop in Hkey as [Hc Hkey]. rewrite Hc.
    rewrite filter_cons_False by (by intros []). auto.
Qed.

Lemma split_app_sep sep a b :
  split sep (a +:+ String sep b) = (split sep a ++ split sep b)%list.
Proof.
  induction a as [|c a IH]; simpl.
  - by rewrite Ascii.eqb_refl.
  - destruct (Ascii.eqb c sep); [by rewrite IH|].
    rewrite IH. pose proof (split_nonempty sep a) as Hne.
    by destruct (split sep a).
Qed.

Lemma split_slash_free name :
  slash_free name = true → split "/" name = [name].
Proof.
  induction name as [|c name IH]; cbn; [done|].
  intros [Hc Hname]%andb_prop. apply negb_true_iff in Hc.
  by rewrite Hc, IH.
Qed.

Lemma slash_free_app a b :
  slash_free a = true → slash_free b = true → slash_free (a +:+ b) = true.
Proof.
  intros Ha Hb. induction a as [|c a IH]; simpl in *; [done|].
  apply andb_prop in Ha as [Hc Ha]. by rewrite Hc, IH.
Qed.

Lemma sub_keys_of_app a b :
  sub_keys_of (a +:+ "/" +:+ b) = (sub_keys_of a ++ sub_keys_of b)%list.
Proof.
  unfold sub_keys_of, filter_None.
  change ("/" +:+ b) with (String "/" b).
  by rewrite split_app_sep, filter_app.
Qed.

Lemma sub_keys_of_slash_free name :
  slash_free name = true → name ≠ "" → sub_keys_of name = [name].
Proof.
  intros Hname Hne. unfold sub_keys_of, filter_None.
  rewrite split_slash_free by done.
  by rewrite filter_cons_True by done.
Qed.

(** ** The generic lookup *)

(** C1. A path that is absent from the document, some key of it not being
    a key of the mapping reached at that step, makes [get_value] return the
    default, whatever the default is. *)
Theorem get_value_absent d p v :
  locate d (sub_keys_of p) = Missing →
  returned (get_value p v) (construct d) = Ok v.
Proof.
  intros Hmissing.
  by rewrite get_value_construct, query_locate, Hmissing.
Qed.

Lemma get_value_absent_witness :
  locate doc_cluster_only (sub_keys_of "/stackSettings/stack_name") = Missing ∧
  returned (get_value "/stackSettings/stack_name" (VStr "unknown"))
           (construct doc_cluster_only) = Ok (VStr "unknown").
Proof.
  assert (Hmissing :
    locate doc_cluster_only (sub_keys_of "/stackSettings/stack_name") = Missing)
    by (vm_compute; reflexivity).
  split; [exact Hmissing|].
  exact (get_value_absent doc_cluster_only "/stackSettings/stack_name"
           (VStr "unknown") Hmissing).
Defined.

(** X16. The lookup never raises: it always returns a value. When the node
    met while keys remain is a boolean, a number, a string or a sequence
    (or the document itself is no mapping), the value returned is the
    default. *)
Theorem get_value_never_raises d p v :
  (∃ x, returned (get_value p v) (construct d) = Ok x) ∧
  (locate d (sub_keys_of p) = NotMapping →
   returned (get_value p v) (construct d) = Ok v).
Proof.
  rewrite get_value_construct. split; [by eexists|].
  intros Hscalar. by rewrite query_locate, Hscalar.
Qed.

Example get_value_scalar_params :
  locate doc_scalar_params (sub_keys_of "commandParams/version") = NotMapping ∧
  returned (get_value "commandParams/version" (VStr "none"))
           (construct doc_scalar_params) = Ok (VStr "none").
Proof.
  assert (Hscalar :
    locate doc_scalar_params (sub_keys_of "commandParams/version") = NotMapping)
    by (vm_compute; reflexivity).
  split; [exact Hscalar|].
  exact (proj2 (get_value_never_raises doc_scalar_params
                  "commandParams/version" (VStr "none")) Hscalar).
Defined.

(** C2. The lookup is to return the default whenever a node met on the way
    is not a mapping. On [{"a": None}], ["a/b"] and default [{"b": 1}] the
    node under ["a"] is null, no mapping, and the lookup returns [1]: line
    59 puts the default in the place of the null and the loop goes on
    inside it, where the docstring has the default returned. *)
Theorem get_value_null_node_not_default :
  meets_non_mapping doc_null_node (sub_keys_of "a/b") ∧
  returned (get_value "a/b" (VDict {[ "b" := VInt 1 ]})) (construct doc_null_node)
  = Ok (VInt 1) ∧
  returned (get_value "a/b" (VDict {[ "b" := VInt 1 ]})) (construct doc_null_node)
  ≠ Ok (VDict {[ "b" := VInt 1 ]}).
Proof.
  assert (Hrun :
    returned (get_value "a/b" (VDict {[ "b" := VInt 1 ]}))
             (construct doc_null_node) = Ok (VInt 1))
    by (vm_compute; reflexivity).
  split; [|split; [exact Hrun|]].
  - right. exists ["b"]. split; [done|]. vm_compute. reflexivity.
  - rewrite Hrun. discriminate.
Qed.

(** X17. What the loop does after a null: the default takes its place and
    the keys that remain are looked up inside the default. The result is
    the default whenever the default is not a mapping. *)
Theorem get_value_null_substitution d p v rest :
  locate d (sub_keys_of p) = NullNode rest →
  returned (get_value p v) (construct d) = Ok (query v rest v) ∧
  (is_dict v = false → returned (get_value p v) (construct d) = Ok v).
Proof.
  intros Hnull. rewrite get_value_construct, query_locate, Hnull.
  split; [done|]. intros Hv. by rewrite query_not_dict.
Qed.

Example get_value_null_params_phase :
  locate doc_null_params (sub_keys_of "commandParams/phase") = NullNode ["phase"] ∧
  returned (get_value "commandParams/phase" (VStr "none"))
           (construct doc_null_params) = Ok (VStr "none").
Proof.
  assert (Hnull :
    locate doc_null_params (sub_keys_of "commandParams/phase")
    = NullNode ["phase"]) by (vm_compute; reflexivity).
  split; [exact Hnull|].
  exact (proj2 (get_value_null_substitution doc_null_params
                  "commandParams/phase" (VStr "none") ["phase"] Hnull) eq_refl).
Defined.

(** C4. A null met before the final key is to make the lookup return the
    default. On [{"commandParams": None}], ["commandParams/version"] and
    default [{"version": "2.0"}] the lookup returns ["2.0"], the entry of
    the default, and not the default: after line 59 the loop continues
    inside the default instead of returning it. *)
Theorem get_value_null_params_not_default :
  null_before_final doc_null_params (sub_keys_of "commandParams/version") ∧
  returned (get_value "commandParams/version"
              (VDict {[ "version" := VStr "2.0" ]})) (construct doc_null_params)
  = Ok (VStr "2.0") ∧
  returned (get_value "commandParams/version"
              (VDict {[ "version" := VStr "2.0" ]})) (construct doc_null_params)
  ≠ Ok (VDict {[ "version" := VStr "2.0" ]}).
Proof.
  assert (Hrun :
    returned (get_value "commandParams/version"
                (VDict {[ "version" := VStr "2.0" ]}))
             (construct doc_null_params) = Ok (VStr "2.0"))
    by (vm_compute; reflexivity).
  split; [|split; [exact Hrun|]].
  - exists ["version"]. split; [done|]. vm_compute. reflexivity.
  - rewrite Hrun. discriminate.
Qed.

(** C10. A query string that is empty or made of slashes only has no key
    in it, and [get_value] returns the whole document, not the default. *)
Theorem get_value_only_slashes d p v :
  only_slashes p = true →
  returned (get_value p v) (construct d) = Ok d.
Proof.
  intros Hp. rewrite get_value_construct.
  by rewrite (sub_keys_only_slashes p Hp).
Qed.

Lemma get_value_only_slashes_witness :
  only_slashes "//" = true ∧
  returned (get_value "//" (VStr "none")) (construct doc_cluster_only)
  = Ok doc_cluster_only.
Proof.
  split; [reflexivity|].
  exact (get_value_only_slashes doc_cluster_only "//" (VStr "none") eq_refl).
Defined.

(** ** The typed getters *)

Lemma expect_v2_construct name default_value d :
  returned (expect_v2 name Tint default_value) (construct d)
  = let value := query d (sub_keys_of name) VNone in
    if eq_None value then Ok (default VNone default_value)
    else match py_int value with
         | Ok n => Ok (VInt n)
         | Raise _ =>
             match default_value with
             | Some fallback => Ok fallback
             | None => Raise CoercionError
             end
         end.
Proof.
  unfold returned, expect_v2, get_value, mbind, M_bind.
  rewrite (__get_value_run _ _ _ d) by apply construct_command.
  cbn zeta. destruct (eq_None _); [done|].
  destruct (py_int _); [done|]. by destruct default_value.
Qed.

Lemma check_agent_config_execute_in_parallel_construct d :
  returned check_agent_config_execute_in_parallel (construct d)
  = match py_int (query d ["agentConfigParams"; "agent"; "parallel_execution"]
                    (VInt 0)) with
    | Ok n => Ok (VInt n)
    | Raise e => Raise e
    end.
Proof.
  unfold returned, check_agent_config_execute_in_parallel, mbind, M_bind.
  rewrite (__get_value_run _ _ _ d) by apply construct_command.
  change (sub_keys_of "agentConfigParams/agent/parallel_execution")
    with ["agentConfigParams"; "agent"; "parallel_execution"].
  unfold lift. by destruct (py_int _).
Qed.

(** C5. [get_java_version] has no default. A field
    [ambariLevelParams/java_version] that [int] accepts, such as ["8"],
    comes back as that integer; a field that is present and that [int]
    refuses makes the getter raise the coercion error, where the boolean
    and string getters of the same document return a value. *)
Theorem get_java_version_coerces d x :
  locate d ["ambariLevelParams"; "java_version"] = Found x →
  (∀ n, py_int x = Ok n →
        returned get_java_version (construct d) = Ok (VInt n)) ∧
  (∀ e, py_int x = Raise e →
        returned get_java_version (construct d) = Raise CoercionError ∧
        (∃ flag, returned is_gpl_license_accepted (construct d) = Ok flag) ∧
        (∃ name, returned get_jdk_name (construct d) = Ok name)).
Proof.
  intros Hfound. unfold get_java_version.
  rewrite expect_v2_construct.
  change (sub_keys_of "ambariLevelParams/java_version")
    with ["ambariLevelParams"; "java_version"].
  rewrite query_locate, Hfound. cbn zeta.
  rewrite (locate_Found_not_None _ _ _ _ Hfound).
  split.
  - intros n Hn. by rewrite Hn.
  - intros e He. rewrite He. split; [done|].
    split; eexists; apply get_value_construct.
Qed.

Lemma get_java_version_coerces_witness :
  locate doc_java_8 ["ambariLevelParams"; "java_version"] = Found (VStr "8") ∧
  py_int (VStr "8") = Ok 8 ∧
  returned get_java_version (construct doc_java_8) = Ok (VInt 8).
Proof.
  assert (Hfound :
    locate doc_java_8 ["ambariLevelParams"; "java_version"] = Found (VStr "8"))
    by (vm_compute; reflexivity).
  split; [exact Hfound|]. split; [reflexivity|].
  exact (proj1 (get_java_version_coerces doc_java_8 (VStr "8") Hfound)
           8 eq_refl).
Defined.

Example get_java_version_refuses :
  returned get_java_version (construct doc_java_dotted) = Raise CoercionError.
Proof. vm_compute. reflexivity. Qed.

(** C3, as the code has it. [get_agent_stack_retry_count] gives its
    default 5 when the field is present and [int] refuses it, the same as
    when the field is absent. [check_agent_config_execute_in_parallel]
    gives its default 0 when the field is absent; when the field is present
    and [int] refuses it, the error of the conversion reaches the caller. *)
Theorem integer_getters_with_default d :
  (∀ x e, locate d ["ambariLevelParams"; "agent_stack_retry_count"] = Found x →
          py_int x = Raise e →
          returned get_agent_stack_retry_count (construct d) = Ok (VInt 5)) ∧
  (locate d ["ambariLevelParams"; "agent_stack_retry_count"] = Missing →
   returned get_agent_stack_retry_count (construct d) = Ok (VInt 5)) ∧
  (∀ x e, locate d ["agentConfigParams"; "agent"; "parallel_execution"] = Found x →
          py_int x = Raise e →
          returned check_agent_config_execute_in_parallel (construct d)
          = Raise e) ∧
  (locate d ["agentConfigParams"; "agent"; "parallel_execution"] = Missing →
   returned check_agent_config_execute_in_parallel (construct d)
   = Ok (VInt 0)).
Proof.
  unfold get_agent_stack_retry_count.
  rewrite expect_v2_construct, check_agent_config_execute_in_parallel_construct.
  change (sub_keys_of "ambariLevelParams/agent_stack_retry_count")
    with ["ambariLevelParams"; "agent_stack_retry_count"].
  rewrite !query_locate. cbn zeta.
  repeat split.
  - intros x e Hfound He. rewrite Hfound.
    by rewrite (locate_Found_not_None _ _ _ _ Hfound), He.
  - by intros ->.
  - intros x e Hfound He. by rewrite Hfound, He.
  - by intros ->.
Qed.

Lemma integer_getters_with_default_witness :
  returned get_agent_stack_retry_count (construct doc_flags_as_words)
  = Ok (VInt 5) ∧
  returned get_agent_stack_retry_count (construct doc_cluster_only)
  = Ok (VInt 5) ∧
  returned check_agent_config_execute_in_parallel (construct doc_flags_as_words)
  = Raise ValueError ∧
  returned check_agent_config_execute_in_parallel (construct doc_cluster_only)
  = Ok (VInt 0).
Proof.
  assert (Hretry :
    locate doc_flags_as_words ["ambariLevelParams"; "agent_stack_retry_count"]
    = Found (VStr "yes")) by (vm_compute; reflexivity).
  assert (Hparallel :
    locate doc_flags_as_words ["agentConfigParams"; "agent"; "parallel_execution"]
    = Found (VStr "yes")) by (vm_compute; reflexivity).
  assert (Hno_retry :
    locate doc_cluster_only ["ambariLevelParams"; "agent_stack_retry_count"]
    = Missing) by (vm_compute; reflexivity).
  assert (Hno_parallel :
    locate doc_cluster_only ["agentConfigParams"; "agent"; "parallel_execution"]
    = Missing) by (vm_compute; reflexivity).
  destruct (integer_getters_with_default doc_flags_as_words)
    as (Hpresent5 & _ & Hpresent0 & _).
  destruct (integer_getters_with_default doc_cluster_only)
    as (_ & Habsent5 & _ & Habsent0).
  split; [exact (Hpresent5 (VStr "yes") ValueError Hretry eq_refl)|].
  split; [exact (Habsent5 Hno_retry)|].
  split; [exact (Hpresent0 (VStr "yes") ValueError Hparallel eq_refl)|].
  exact (Habsent0 Hno_parallel).
Defined.

(** C3 as stated fails for [check_agent_config_execute_in_parallel]: on a
    document whose [agentConfigParams/agent/parallel_execution] is ["yes"]
    the getter raises the [ValueError] of [int("yes")] and does not return
    0. *)
Lemma check_agent_config_execute_in_parallel_raises :
  locate doc_flags_as_words ["agentConfigParams"; "agent"; "parallel_execution"]
  = Found (VStr "yes") ∧
  py_int (VStr "yes") = Raise ValueError ∧
  returned check_agent_config_execute_in_parallel (construct doc_flags_as_words)
  = Raise ValueError ∧
  returned check_agent_config_execute_in_parallel (construct doc_flags_as_words)
  ≠ Ok (VInt 0).
Proof.
  assert (Hrun :
    returned check_agent_config_execute_in_parallel
             (construct doc_flags_as_words) = Raise ValueError)
    by (vm_compute; reflexivity).
  split; [vm_compute; reflexivity|]. split; [reflexivity|].
  split; [exact Hrun|]. rewrite Hrun. discriminate.
Qed.

(** ** Getters with a computed or a fixed answer *)

(** C6. For a component other than ["oozie_server"], [get_component_hosts]
    is the lookup of [clusterHostInfo/<component>_hosts] with the empty
    list as default; for ["oozie_server"] it is the lookup of the bare key
    [clusterHostInfo/oozie_server]. The two documents of the specification
    give [["h1"]] and [["h2"]]. *)
Theorem get_component_hosts_paths component_name :
  component_name ≠ "oozie_server" →
  get_component_hosts component_name
  = get_value ("clusterHostInfo/" +:+ component_name +:+ "_hosts") (VList []) ∧
  get_component_hosts "oozie_server"
  = get_value "clusterHostInfo/oozie_server" (VList []) ∧
  returned (get_component_hosts "oozie_server") (construct doc_oozie)
  = Ok (VList [VStr "h1"]) ∧
  returned (get_component_hosts "zookeeper_server") (construct doc_zookeeper)
  = Ok (VList [VStr "h2"]).
Proof.
  intros Hother. unfold get_component_hosts, get_value.
  apply String.eqb_neq in Hother. rewrite Hother.
  repeat split; vm_compute; reflexivity.
Qed.

Lemma get_component_hosts_paths_witness :
  "zookeeper_server" ≠ "oozie_server" ∧
  get_component_hosts "zookeeper_server"
  = get_value "clusterHostInfo/zookeeper_server_hosts" (VList []).
Proof.
  assert (Hother : "zookeeper_server" ≠ "oozie_server") by discriminate.
  split; [exact Hother|].
  exact (proj1 (get_component_hosts_paths "zookeeper_server" Hother)).
Defined.

(** C7. [get_node] of a node type is the lookup of
    [commandParams/<type>node] with default [None]: [commandParams/activenode]
    for ["active"], [commandParams/standbynode] for ["standby"]. *)
Theorem get_node_path type :
  get_node type = get_value ("commandParams/" +:+ type +:+ "node") VNone ∧
  get_node "active" = get_value "commandParams/activenode" VNone ∧
  get_node "standby" = get_value "commandParams/standbynode" VNone ∧
  returned (get_node "active") (construct doc_namenodes) = Ok (VStr "nn1") ∧
  returned (get_node "standby") (construct doc_namenodes) = Ok (VStr "nn2") ∧
  returned (get_node "active") (construct doc_cluster_only) = Ok VNone.
Proof.
  repeat split; vm_compute; reflexivity.
Qed.

(** C8. [get_component_instance_name] returns ["default"] on every
    document, the empty one included; it does not read the document. *)
Theorem get_component_instance_name_default d :
  returned get_component_instance_name (construct d) = Ok (VStr "default") ∧
  returned get_component_instance_name (construct (VDict ∅))
  = Ok (VStr "default").
Proof. split; reflexivity. Qed.

(** ** The getters only read *)

Create HintDb read_only discriminated.

Lemma preserves_mret {A} (a : A) : preserves (mret a).
Proof. by intros self. Qed.

Lemma preserves_raise {A} (e : exn) : preserves (raise (A := A) e).
Proof. by intros self. Qed.

Lemma preserves_lift {A} (r : result A) : preserves (lift r).
Proof. by intros self. Qed.

Lemma preserves_read_execution_command : preserves read_execution_command.
Proof.
  intros self. unfold after, read_execution_command.
  by destruct (execution_command self).
Qed.

Lemma preserves_read_module_configs : preserves read_module_configs.
Proof.
  intros self. unfold after, read_module_configs.
  by destruct (module_configs self).
Qed.

Lemma preserves_mbind {A B} (m : M A) (f : A → M B) :
  preserves m → (∀ a, preserves (f a)) → preserves (m ≫= f).
Proof.
  intros Hm Hf self. specialize (Hm self).
  unfold after, mbind, M_bind in *.
  destruct (m self) as [[a|e] self']; cbn in Hm; subst self'; [|done].
  apply Hf.
Qed.

Lemma preserves_fmap {A B} (g : A → B) (m : M A) :
  preserves m → preserves (g <$> m).
Proof.
  intros Hm. apply preserves_mbind; [done|].
  intros a. apply preserves_mret.
Qed.

Lemma preserves_try_except {A} (body handler : M A) :
  preserves body → preserves handler → preserves (try_except body handler).
Proof.
  intros Hbody Hhandler self. specialize (Hbody self).
  unfold after, try_except in *.
  destruct (body self) as [[a|e] self']; cbn in Hbody; subst self'; [done|].
  apply Hhandler.
Qed.

#[global] Hint Resolve preserves_mret preserves_raise preserves_lift
  preserves_read_execution_command preserves_read_module_configs
  preserves_mbind preserves_fmap preserves_try_except : read_only.

Lemma preserves___get_value key default_value :
  preserves (__get_value key default_value).
Proof. unfold __get_value. auto with read_only. Qed.

#[global] Hint Resolve preserves___get_value : read_only.

Lemma preserves_expect_v2 name expected_type default_value :
  preserves (expect_v2 name expected_type default_value).
Proof.
  unfold expect_v2, get_value. apply preserves_mbind; [auto with read_only|].
  intros value. destruct (eq_None value); [auto with read_only|].
  destruct expected_type, (py_int value), default_value; auto with read_only.
Qed.

Lemma preserves_check_agent_config_execute_in_parallel :
  preserves check_agent_config_execute_in_parallel.
Proof.
  unfold check_agent_config_execute_in_parallel.
  repeat (apply preserves_mbind; [auto with read_only|intros ?]).
  auto with read_only.
Qed.

Lemma preserves_call f : preserves (call f).
Proof.
  destruct f; cbn [call]; apply preserves_fmap;
    first [ apply preserves___get_value
          | apply preserves_expect_v2
          | apply preserves_check_agent_config_execute_in_parallel
          | apply preserves_read_module_configs
          | apply preserves_mret ].
Qed.

(** C9. Every getter leaves the object, and with it the command document,
    as it was, and a second call right after the first returns what the
    first returned. *)
Theorem getters_read_only f d :
  after (call f) (construct d) = construct d ∧
  execution_command (after (call f) (construct d)) = Some d ∧
  returned (call f) (after (call f) (construct d))
  = returned (call f) (construct d).
Proof.
  rewrite (preserves_call f (construct d)).
  by rewrite construct_command.
Qed.

(** ** The entries behind the computed keys *)

(** For a node type with no slash in it, [get_node] reads the entry
    [<type>node] of the mapping under [commandParams]. *)
Lemma get_node_entry d type :
  slash_free type = true →
  returned (get_node type) (construct d)
  = Ok (query d ["commandParams"; type +:+ "node"] VNone).
Proof.
  intros Htype.
  change (get_node type)
    with (get_value ("commandParams" +:+ "/" +:+ (type +:+ "node")) VNone).
  rewrite get_value_construct, sub_keys_of_app.
  rewrite (sub_keys_of_slash_free (type +:+ "node")); [done| |].
  - by apply slash_free_app.
  - by destruct type.
Qed.

(** For a component other than the special one, with no slash in its name,
    [get_component_hosts] reads the entry [<component>_hosts] of the mapping
    under [clusterHostInfo]. *)
Lemma get_component_hosts_entry d component_name :
  slash_free component_name = true →
  component_name ≠ "oozie_server" →
  returned (get_component_hosts component_name) (construct d)
  = Ok (query d ["clusterHostInfo"; component_name +:+ "_hosts"] (VList [])).
Proof.
  intros Hname Hother. unfold get_component_hosts.
  apply String.eqb_neq in Hother. rewrite Hother.
  change (__get_value ("clusterHostInfo/" +:+ component_name +:+ "_hosts"))
    with (get_value
            ("clusterHostInfo" +:+ "/" +:+ (component_name +:+ "_hosts"))).
  rewrite get_value_construct, sub_keys_of_app.
  rewrite (sub_keys_of_slash_free (component_name +:+ "_hosts")); [done| |].
  - by apply slash_free_app.
  - by destruct component_name.
Qed.

(** * Further properties of the lookup *)

(** ** The result by the shape of the document *)

(** X1. A path that leads through mappings to a value that is not null
    makes the lookup return this value, whatever the default. *)
Theorem get_value_found d p v x :
  locate d (sub_keys_of p) = Found x →
  returned (get_value p v) (construct d) = Ok x.
Proof.
  intros Hfound. by rewrite get_value_construct, query_locate, Hfound.
Qed.

Lemma get_value_found_witness :
  locate doc_namenodes (sub_keys_of "commandParams/activenode")
  = Found (VStr "nn1") ∧
  returned (get_value "commandParams/activenode" (VStr "none"))
           (construct doc_namenodes) = Ok (VStr "nn1").
Proof.
  assert (Hfound :
    locate doc_namenodes (sub_keys_of "commandParams/activenode")
    = Found (VStr "nn1")) by (vm_compute; reflexivity).
  split; [exact Hfound|].
  exact (get_value_found doc_namenodes "commandParams/activenode"
           (VStr "none") (VStr "nn1") Hfound).
Defined.

(** X2. A path whose final key holds null makes the lookup return the
    default, not the null. *)
Theorem get_value_null_final d p v :
  locate d (sub_keys_of p) = NullNode [] →
  returned (get_value p v) (construct d) = Ok v.
Proof.
  intros Hnull. by rewrite get_value_construct, query_locate, Hnull.
Qed.

Lemma get_value_null_final_witness :
  locate doc_null_params (sub_keys_of "commandParams") = NullNode [] ∧
  returned (get_value "commandParams" (VDict ∅)) (construct doc_null_params)
  = Ok (VDict ∅).
Proof.
  assert (Hnull :
    locate doc_null_params (sub_keys_of "commandParams") = NullNode [])
    by (vm_compute; reflexivity).
  split; [exact Hnull|].
  exact (get_value_null_final doc_null_params "commandParams" (VDict ∅) Hnull).
Defined.

(** X3. With a default that is not a mapping the lookup has two outcomes
    only: the value the path leads to, when it leads to one that is not
    null, and the default in every other case. *)
Theorem get_value_found_or_default d p v :
  is_dict v = false →
  returned (get_value p v) (construct d)
  = Ok (match locate d (sub_keys_of p) with
        | Found x => x
        | _ => v
        end).
Proof.
  intros Hv. rewrite get_value_construct, query_locate.
  destruct (locate d (sub_keys_of p)); try done.
  by rewrite query_not_dict.
Qed.

Lemma get_value_found_or_default_witness :
  returned (get_value "commandParams/version/major" (VList []))
           (construct doc_null_params) = Ok (VList []).
Proof.
  exact (get_value_found_or_default doc_null_params
           "commandParams/version/major" (VList []) eq_refl).
Defined.

(** ** Query strings *)

Lemma get_value_same_keys p q v :
  sub_keys_of p = sub_keys_of q → get_value p v = get_value q v.
Proof. intros Hkeys. unfold get_value, __get_value. by rewrite Hkeys. Qed.

Lemma split_slash_free_all key :
  Forall (λ piece, slash_free piece = true) (split "/" key).
Proof.
  induction key as [|c key IH]; simpl; [by repeat constructor|].
  destruct (Ascii.eqb c "/") eqn:Hc; [by constructor|].
  destruct (split "/" key) as [|piece pieces].
  { constructor; [simpl; by rewrite Hc|constructor]. }
  inversion_clear IH as [|? ? Hpiece Hpieces].
  constructor; [|done]. simpl. by rewrite Hc, Hpiece.
Qed.

(** X4. Every key the lookup takes from a query string is non-empty and
    has no slash in it. *)
Theorem sub_keys_of_wellformed p :
  Forall wellformed_key (sub_keys_of p).
Proof.
  apply Forall_forall. intros key Hkey.
  apply list_elem_of_filter in Hkey as [Hne Hin].
  split; [done|].
  by apply (proj1 (Forall_forall _ _) (split_slash_free_all p)).
Qed.

(** X5. Joining keys with slashes and splitting again gives the keys back,
    when each key is non-empty and free of slashes. *)
Theorem sub_keys_of_join keys :
  Forall wellformed_key keys →
  sub_keys_of (join "/" keys) = keys.
Proof.
  induction 1 as [|key keys [Hne Hfree] Hkeys IH]; [done|].
  destruct keys as [|key' keys].
  - by apply sub_keys_of_slash_free.
  - change (join "/" (key :: key' :: keys))
      with (key +:+ "/" +:+ join "/" (key' :: keys)).
    by rewrite sub_keys_of_app, IH, sub_keys_of_slash_free.
Qed.

Lemma sub_keys_of_join_witness :
  sub_keys_of (join "/" ["agentConfigParams"; "agent"; "parallel_execution"])
  = ["agentConfigParams"; "agent"; "parallel_execution"].
Proof.
  apply sub_keys_of_join.
  repeat (constructor; [by split|]). constructor.
Defined.

(** X6. A query string and its normal form, the keys joined by single
    slashes, are the same query; so leading, trailing and doubled slashes
    do not matter. *)
Theorem get_value_normal_form p q v :
  get_value (join "/" (sub_keys_of p)) v = get_value p v ∧
  get_value ("/" +:+ p) v = get_value p v ∧
  get_value (p +:+ "/") v = get_value p v ∧
  get_value (p +:+ "//" +:+ q) v = get_value (p +:+ "/" +:+ q) v.
Proof.
  split; [|split; [|split]]; apply get_value_same_keys.
  - apply sub_keys_of_join, sub_keys_of_wellformed.
  - change ("/" +:+ p) with ("" +:+ "/" +:+ p).
    by rewrite sub_keys_of_app.
  - change (p +:+ "/") with (p +:+ "/" +:+ "").
    rewrite sub_keys_of_app. apply app_nil_r.
  - change (p +:+ "//" +:+ q) with (p +:+ "/" +:+ ("" +:+ "/" +:+ q)).
    by rewrite !sub_keys_of_app.
Qed.

(** ** Longer paths *)

Lemma traverse_app_found d keys x more v :
  locate d keys = Found x →
  traverse (keys ++ more) d v = traverse more x v.
Proof.
  revert d. induction keys as [|key keys IH]; intros d Hfound.
  - cbn in Hfound. by simplify_eq.
  - destruct d as [| | | | | |m]; try done. cbn in Hfound |- *.
    destruct (m !! key) as [item|] eqn:Hitem; [|done]. cbn.
    destruct item; try done; apply IH, Hfound.
Qed.

Lemma locate_app_stuck d keys more :
  locate d keys = Missing ∨ locate d keys = NotMapping →
  locate d (keys ++ more) = locate d keys.
Proof.
  revert d. induction keys as [|key keys IH]; intros d Hstuck.
  - by destruct Hstuck.
  - destruct d as [| | | | | |m]; try done. cbn in Hstuck |- *.
    destruct (m !! key) as [item|]; [|done].
    destruct item; try (by destruct Hstuck); by apply IH.
Qed.

(** X7. Looking up [p/q] is looking up [q] in the value that [p] leads
    to, when [p] leads to a value that is not null. *)
Theorem get_value_path_composes d p q v x :
  locate d (sub_keys_of p) = Found x →
  returned (get_value (p +:+ "/" +:+ q) v) (construct d)
  = returned (get_value q v) (construct x).
Proof.
  intros Hfound. rewrite !get_value_construct, sub_keys_of_app.
  unfold query. by rewrite (traverse_app_found _ _ x).
Qed.

Lemma get_value_path_composes_witness :
  returned (get_value ("clusterHostInfo" +:+ "/" +:+ "oozie_server") VNone)
           (construct doc_oozie)
  = returned (get_value "oozie_server" VNone)
             (construct (VDict {[ "oozie_server" := VList [VStr "h1"] ]})).
Proof.
  apply get_value_path_composes. vm_compute. reflexivity.
Defined.

(** X8. Below a path that is absent, or that runs into a value that is no
    mapping, every longer path gives the default. *)
Theorem get_value_below_absent d p q v :
  locate d (sub_keys_of p) = Missing ∨ locate d (sub_keys_of p) = NotMapping →
  returned (get_value (p +:+ "/" +:+ q) v) (construct d) = Ok v.
Proof.
  intros Hstuck. rewrite get_value_construct, sub_keys_of_app, query_locate.
  rewrite (locate_app_stuck _ _ _ Hstuck). by destruct Hstuck as [-> | ->].
Qed.

Lemma get_value_below_absent_witness :
  returned (get_value ("stackSettings" +:+ "/" +:+ "stack_name")
              (VDict {[ "stack_name" := VStr "HDPCORE" ]}))
           (construct doc_cluster_only)
  = Ok (VDict {[ "stack_name" := VStr "HDPCORE" ]}).
Proof.
  apply get_value_below_absent. left. vm_compute. reflexivity.
Defined.

(** ** The constructor and the module configuration *)

Lemma query_single d key : query d [key] VNone = entry d key.
Proof.
  rewrite query_locate. destruct d as [| | | | | |m]; try done. cbn.
  destruct (m !! key) as [item|]; [|done]. by destruct item.
Qed.

(** X9. The constructor keeps the command as it is given and hands the
    entries [configurations] and [configurationAttributes] of the command
    to the module configuration unchanged, [None] standing for an entry
    that is missing; [get_module_configs] returns that object. *)
Theorem construct_hands_over d :
  execution_command (construct d) = Some d ∧
  returned get_module_configs (construct d)
  = Ok (mkModuleConfigs (entry d "configurations")
                        (entry d "configurationAttributes")).
Proof.
  rewrite construct_run. split; [done|].
  change (sub_keys_of "configurations") with ["configurations"].
  change (sub_keys_of "configurationAttributes") with ["configurationAttributes"].
  by rewrite !query_single.
Qed.

(** ** All the getters *)

Lemma __get_value_construct key keys v d :
  sub_keys_of key = keys → is_dict v = false →
  returned (__get_value key v) (construct d) = Ok (value_at d keys v).
Proof.
  intros <- Hv. unfold returned, value_at.
  rewrite (__get_value_run _ _ _ d) by apply construct_command.
  cbn. rewrite query_locate.
  destruct (locate d (sub_keys_of key)); try done.
  by rewrite query_not_dict.
Qed.

(** X10. Each of the fifty getters of a fixed path returns the value its
    path leads to when that value is there and not null, and its own
    default in every other case: a key missing, a null, a value on the way
    that is no mapping. None of them raises, and none converts what it
    finds. *)
Theorem fixed_getters_found_or_default :
  Forall (λ '(getter, keys, default_value),
            ∀ d, returned getter (construct d)
                 = Ok (value_at d keys default_value))
         fixed_getters.
Proof.
  unfold fixed_getters.
  repeat (apply Forall_cons; split;
          [intros d; by apply __get_value_construct|]).
  by apply Forall_nil.
Qed.

Lemma returned_fmap {A B} (g : A → B) (m : M A) self :
  returned (g <$> m) self
  = match returned m self with
    | Ok a => Ok (g a)
    | Raise e => Raise e
    end.
Proof.
  unfold returned, fmap, M_fmap, mbind, M_bind.
  by destruct (m self) as [[a|e] self'].
Qed.

Lemma value_getter_returns key v d :
  ∃ r, returned (RValue <$> __get_value key v) (construct d) = Ok r.
Proof.
  rewrite returned_fmap. unfold returned.
  rewrite (__get_value_run _ _ _ d) by apply construct_command.
  by eexists.
Qed.



Lemma run_calls_preserves fs self : run_calls fs self = self.
Proof.
  unfold run_calls. revert self.
  induction fs as [|f fs IH]; intros self; [done|].
  cbn. by rewrite preserves_call.
Qed.

(** X12. Calls made one after the other, any methods in any order, some
    of them raising or not, leave the object as the constructor built it,
    and a getter called after them returns what it returns on the fresh
    object. *)
Theorem calls_in_any_order fs f d :
  run_calls fs (construct d) = construct d ∧
  returned (call f) (run_calls fs (construct d))
  = returned (call f) (construct d).
Proof. by rewrite run_calls_preserves. Qed.

(** ** Getters with a computed key *)

(** X13. For a node type with no slash in it, [get_node] returns the entry
    [<type>node] of the mapping under [commandParams] when it is there and
    not null, and [None] otherwise. *)
Theorem get_node_reads_entry d type :
  slash_free type = true →
  returned (get_node type) (construct d)
  = Ok (value_at d ["commandParams"; type +:+ "node"] VNone).
Proof.
  intros Htype.
  change (get_node type)
    with (__get_value ("commandParams" +:+ "/" +:+ (type +:+ "node")) VNone).
  apply __get_value_construct; [|done].
  rewrite sub_keys_of_app, (sub_keys_of_slash_free (type +:+ "node")); [done| |].
  - by apply slash_free_app.
  - by destruct type.
Qed.

Lemma get_node_reads_entry_witness :
  returned (get_node "standby") (construct doc_namenodes)
  = Ok (value_at doc_namenodes ["commandParams"; "standbynode"] VNone).
Proof. exact (get_node_reads_entry doc_namenodes "standby" eq_refl). Defined.

(** X14. For a component name with no slash in it, [get_component_host]
    reads the entry [<name>_host] of the mapping under [clusterHostInfo],
    for ["oozie_server"] as for any other name, while [get_component_hosts]
    reads [<name>_hosts] and, for ["oozie_server"] alone, the entry
    [oozie_server]; both give the empty list when the entry is not there. *)
Theorem component_getters_read_entries d component_name :
  slash_free component_name = true →
  returned (get_component_host component_name) (construct d)
  = Ok (value_at d ["clusterHostInfo"; component_name +:+ "_host"] (VList [])) ∧
  returned (get_component_hosts component_name) (construct d)
  = Ok (value_at d ["clusterHostInfo";
                    if String.eqb component_name "oozie_server"
                    then component_name
                    else component_name +:+ "_hosts"] (VList [])).
Proof.
  intros Hname. split.
  - change (get_component_host component_name)
      with (__get_value
              ("clusterHostInfo" +:+ "/" +:+ (component_name +:+ "_host"))
              (VList [])).
    apply __get_value_construct; [|done].
    rewrite sub_keys_of_app,
      (sub_keys_of_slash_free (component_name +:+ "_host")); [done| |].
    + by apply slash_free_app.
    + by destruct component_name.
  - unfold get_component_hosts.
    destruct (String.eqb component_name "oozie_server") eqn:Hspecial.
    + apply String.eqb_eq in Hspecial as ->.
      by apply __get_value_construct.
    + change (__get_value ("clusterHostInfo/" +:+ component_name +:+ "_hosts"))
        with (__get_value
                ("clusterHostInfo" +:+ "/" +:+ (component_name +:+ "_hosts"))).
      apply __get_value_construct; [|done].
      rewrite sub_keys_of_app,
        (sub_keys_of_slash_free (component_name +:+ "_hosts")); [done| |].
      * by apply slash_free_app.
      * by destruct component_name.
Qed.

Lemma component_getters_read_entries_witness :
  returned (get_component_host "oozie_server") (construct doc_oozie)
  = Ok (VList []) ∧
  returned (get_component_hosts "oozie_server") (construct doc_oozie)
  = Ok (VList [VStr "h1"]).
Proof.
  exact (component_getters_read_entries doc_oozie "oozie_server" eq_refl).
Defined.

(** ** The flag of parallel execution *)

(** X15. [check_agent_config_execute_in_parallel] converts with [int] the
    value of [agentConfigParams/agent/parallel_execution] when it is there
    and not null: the integer when [int] accepts the value, the error of
    [int] when it does not. In every other case it returns 0. *)
Theorem check_agent_config_execute_in_parallel_cases d :
  returned check_agent_config_execute_in_parallel (construct d)
  = match locate d ["agentConfigParams"; "agent"; "parallel_execution"] with
    | Found x =>
        match py_int x with
        | Ok n => Ok (VInt n)
        | Raise e => Raise e
        end
    | _ => Ok (VInt 0)
    end.
Proof.
  rewrite check_agent_config_execute_in_parallel_construct, query_locate.
  destruct (locate d _); try done.
  by rewrite query_not_dict.
Qed.
